(** * The LoRa adapter service (package [lora], file service.go)

    A shallow embedding of the adapter service that forwards messages of a
    LoRa network server to the internal message bus, and of the identity
    management calls that fill its two route maps.

    The service talks to three collaborators through Go interfaces: two
    [RouteMapRepository] values and one [broker.Nats].  Its methods are
    embedded as programs over the calls they make on these collaborators
    (type [prog]); a program is run against any implementation of the
    collaborators ([exec]), which also records the calls that were made. *)

From Stdlib Require Import ZArith NArith List Bool Lia.
From Stdlib Require Import Strings.String Strings.Ascii Strings.Byte.
From stdpp Require Import gmap strings.

Import ListNotations.
Local Open Scope string_scope.
Local Open Scope list_scope.
Local Open Scope Z_scope.

(** ** Bytes *)

(** Go's conversion [byte(x)] of an unsigned integer: the low eight bits. *)
Definition byte_of_N (x : N) : byte :=
  match Byte.of_N (N.land x 255) with
  | Some b => b
  | None => x00
  end.

(** Go's conversion [[]byte(s)] of a string. *)
Definition bytes_of_string (s : string) : list byte := list_byte_of_string s.

(** ** encoding/base64: [StdEncoding.DecodeString]

    A model of the decoder of Go's standard library for the standard
    encoding: the alphabet of RFC 4648, padding character [=], not strict.
    The decoder reads quanta of four characters, skips carriage returns and
    line feeds, and reports the offset of the first byte it cannot accept. *)
Module base64.

Definition encodeStd : string :=
  "ABCDEFGHIJKLMNOPQRSTUVWXYZabcdefghijklmnopqrstuvwxyz0123456789+/".

Definition StdPadding : byte := "=".

(** [type CorruptInputError int64]: the offset of the offending byte. *)
Definition CorruptInputError : Type := Z.

Fixpoint index_from (i : N) (c : byte) (alphabet : list byte) : N :=
  match alphabet with
  | [] => 255
  | a :: rest => if Byte.eqb c a then i else index_from (i + 1) c rest
  end.

(** [decodeMap[encoder[i]] = i], and [0xFF] for a byte outside the
    alphabet. *)
Definition decodeMap (c : byte) : N :=
  index_from 0 c (bytes_of_string encodeStd).

Definition is_newline (c : byte) : bool :=
  Byte.eqb c x0a || Byte.eqb c x0d.

(** The loops [for si < len(src) && (src[si] == '\n' || src[si] == '\r')]:
    the input that is left and its offset. *)
Fixpoint skip_newlines (src : list byte) (si : Z) : list byte * Z :=
  match src with
  | c :: rest => if is_newline c then skip_newlines rest (si + 1) else (src, si)
  | [] => (src, si)
  end.

(** The end of [decodeQuantum]: four 6-bit values are packed into 24 bits,
    of which the first [dlen - 1] bytes are written. *)
Definition assemble (dlen : nat) (dbuf : list N) : list byte :=
  let d i := nth i dbuf 0%N in
  let val :=
    N.lor (N.lor (N.lor (N.shiftl (d 0%nat) 18) (N.shiftl (d 1%nat) 12))
                 (N.shiftl (d 2%nat) 6)) (d 3%nat) in
  firstn (dlen - 1)
    [byte_of_N (N.shiftr val 16); byte_of_N (N.shiftr val 8); byte_of_N val].

(** After the padding of a quantum: newlines are skipped and anything
    else is trailing garbage, reported after the quantum is written. *)
Definition after_padding (src : list byte) (si : Z) (j : nat)
    (dbuf : list N) (dst : list byte)
  : list byte * option CorruptInputError :=
  let '(rest, si') := skip_newlines src si in
  (dst ++ assemble j dbuf,
   match rest with
   | [] => None
   | _ :: _ => Some si'
   end).

(** [Decode]: [src] is the input from offset [si] on, [j] and [dbuf] are
    the position in the current quantum and its values so far, [dst] the
    bytes already written.  The result is [dst[:n]] and [err]. *)
Fixpoint decode (len : Z) (src : list byte) (si : Z) (j : nat)
    (dbuf : list N) (dst : list byte) {struct src}
  : list byte * option CorruptInputError :=
  match src with
  | [] =>
      match j with
      | O => (dst, None)
      | _ => (dst, Some (si - Z.of_nat j))
      end
  | c :: rest =>
      let si := si + 1 in
      let out := decodeMap c in
      if negb (out =? 255)%N then
        match j with
        | 3%nat => decode len rest si 0 [] (dst ++ assemble 4 (dbuf ++ [out]))
        | _ => decode len rest si (S j) (dbuf ++ [out]) dst
        end
      else if is_newline c then decode len rest si j dbuf dst
      else if negb (Byte.eqb c StdPadding) then (dst, Some (si - 1))
      else
        match j with
        | 0%nat | 1%nat => (dst, Some (si - 1))
        | 2%nat =>
            let '(rest2, si2) := skip_newlines rest si in
            match rest2 with
            | [] => (dst, Some len)
            | c2 :: rest3 =>
                if negb (Byte.eqb c2 StdPadding) then (dst, Some (si2 - 1))
                else after_padding rest3 (si2 + 1) j dbuf dst
            end
        | _ => after_padding rest si j dbuf dst
        end
  end.

(** [func (enc *Encoding) DecodeString(s string) ([]byte, error)] for
    [enc = StdEncoding]. *)
Definition DecodeString (s : string) : list byte * option CorruptInputError :=
  let src := bytes_of_string s in
  decode (Z.of_nat (List.length src)) src 0 0 [] [].

End base64.

(** ** time and github.com/golang/protobuf/ptypes *)

(** What [ptypes.TimestampProto] reads of a [time.Time]: [t.Unix()] and
    [t.Nanosecond()]. *)
Record Time : Type := { Unix : Z; Nanosecond : Z }.

(** ** Errors *)

(** Modelled from the spec: the error kinds of a route-map repository
    (sections 4.1 and 7); the implementations of [RouteMapRepository] are
    not part of service.go. *)
Inductive repo_error : Type :=
| NotFound
| StoreUnavailable.

(** An error value made outside package [lora]: by a route-map repository
    or by an imported package.  Go's import graph has no cycle, so
    encoding/json, ptypes and broker cannot return one of the four error
    variables of this package. *)
Inductive foreign_error : Type :=
| RepositoryError (e : repo_error)
| LibraryError (pkg msg : string).

(** Go's [error] as this package sees it: its own four variables (the [var]
    block of service.go) and the errors of others, which it passes on. *)
Inductive error : Type :=
| ErrMalformedIdentity
| ErrMalformedMessage
| ErrNotFoundDev
| ErrNotFoundApp
| Foreign (e : foreign_error).

Module ptypes.

Record Timestamp : Type := { Seconds : Z; Nanos : Z }.

(** [time.Date(1, 1, 1, 0, 0, 0, 0, time.UTC).Unix()] *)
Definition minValidSeconds : Z := -62135596800.
(** [time.Date(10000, 1, 1, 0, 0, 0, 0, time.UTC).Unix()] *)
Definition maxValidSeconds : Z := 253402300800.

Definition validateTimestamp (ts : Timestamp) : option foreign_error :=
  if Seconds ts <? minValidSeconds then
    Some (LibraryError "ptypes" "timestamp before 0001-01-01")
  else if maxValidSeconds <=? Seconds ts then
    Some (LibraryError "ptypes" "timestamp after 10000-01-01")
  else if (Nanos ts <? 0) || (1000000000 <=? Nanos ts) then
    Some (LibraryError "ptypes" "timestamp: nanos not in range [0, 1e9)")
  else None.

(** [func TimestampProto(t time.Time)], which returns a timestamp or an
    error. *)
Definition TimestampProto (t : Time) : Timestamp + foreign_error :=
  let ts := {| Seconds := Unix t; Nanos := Nanosecond t |} in
  match validateTimestamp ts with
  | Some err => inr err
  | None => inl ts
  end.

End ptypes.

(** The time of the clock is one a timestamp can hold: the years 1 to 9999. *)
Definition representable (t : Time) : Prop :=
  ptypes.minValidSeconds <= Unix t < ptypes.maxValidSeconds /\
  0 <= Nanosecond t < 1000000000.

(** ** github.com/mainflux/mainflux/broker *)
Module broker.

(** The fields of [broker.Message] that [Publish] sets. *)
Record Message : Type := {
  Publisher : string;
  Protocol : string;
  ContentType : string;
  Channel : string;
  Payload : list byte;
  Created : ptypes.Timestamp
}.

End broker.

(** ** Package lora *)

(** What the package takes from its surroundings without looking inside:
    the values of [context.Context], the non-nil values an [interface{}]
    can hold, and [json.Marshal] on them. *)
Class Env : Type := {
  context_Context : Type;
  value : Type;
  json_Marshal : value -> list byte + foreign_error
}.

Definition protocol : string := "lora".
Definition thingSuffix : string := "thing".
Definition channelSuffix : string := "channel".
Definition contentType : string := "application/json".

Section Service.

Context {env : Env}.

(** Modelled from the spec: the fields of [Message] (declared in another
    file of the package) that the spec names and [Publish] reads.  A nil
    [Object] is [None]. *)
Record Message : Type := {
  DevEUI : string;
  ApplicationID : string;
  Data : string;
  Object : option value
}.

(** The fields of [adapterService] that hold a [RouteMapRepository]. *)
Inductive repo : Type := thingsRM | channelsRM.

(** The calls of the service on its collaborators, indexed by what they
    return: the three methods of [RouteMapRepository] on either
    repository, the clock, and [Publish] of the [broker] field. *)
Inductive call : Type -> Type :=
| Get (rm : repo) (key : string) : call (string + repo_error)
| Save (rm : repo) (a b : string) : call (option repo_error)
| Remove (rm : repo) (a : string) : call (option repo_error)
| time_Now : call Time
| broker_Publish (ctx : context_Context) (token : string)
    (msg : broker.Message) : call (option foreign_error).

(** A method body: it returns, or makes a call and goes on with the
    answer. *)
Inductive prog (A : Type) : Type :=
| Return (a : A)
| Call {X : Type} (c : call X) (k : X -> prog A).

Arguments Return {A} a.
Arguments Call {A X} c k.

(** An error of a repository, returned as it is. *)
Definition repo_err (r : option repo_error) : option error :=
  match r with
  | Some e => Some (Foreign (RepositoryError e))
  | None => None
  end.

(** The [switch m.Object] of [Publish]: the payload, or the error
    [Publish] returns. *)
Definition payload_of (m : Message) : list byte + error :=
  match Object m with
  | None =>
      let '(payload, err) := base64.DecodeString (Data m) in
      match err with
      | Some _ => inr ErrMalformedMessage
      | None => inl payload
      end
  | Some o =>
      match json_Marshal o with
      | inr err => inr (Foreign err)
      | inl jo => inl jo
      end
  end.

(** [func (as *adapterService) Publish(ctx, token, m) error] *)
Definition Publish (ctx : context_Context) (token : string) (m : Message)
  : prog (option error) :=
  Call (Get thingsRM (DevEUI m)) (fun r =>
  match r with
  | inr _ => Return (Some ErrNotFoundDev)
  | inl thing =>
  Call (Get channelsRM (ApplicationID m)) (fun r =>
  match r with
  | inr _ => Return (Some ErrNotFoundApp)
  | inl channel =>
  match payload_of m with
  | inr err => Return (Some err)
  | inl payload =>
  Call time_Now (fun now =>
  match ptypes.TimestampProto now with
  | inr err => Return (Some (Foreign err))
  | inl created =>
  let msg := {| broker.Publisher := thing;
                broker.Protocol := protocol;
                broker.ContentType := contentType;
                broker.Channel := channel;
                broker.Payload := payload;
                broker.Created := created |} in
  Call (broker_Publish ctx token msg) (fun r =>
  Return (option_map Foreign r))
  end)
  end
  end)
  end).

Definition CreateThing (thingID devEUI : string) : prog (option error) :=
  Call (Save thingsRM thingID devEUI) (fun r => Return (repo_err r)).

Definition UpdateThing (thingID devEUI : string) : prog (option error) :=
  Call (Save thingsRM thingID devEUI) (fun r => Return (repo_err r)).

Definition RemoveThing (thingID : string) : prog (option error) :=
  Call (Remove thingsRM thingID) (fun r => Return (repo_err r)).

Definition CreateChannel (chanID appID : string) : prog (option error) :=
  Call (Save channelsRM chanID appID) (fun r => Return (repo_err r)).

Definition UpdateChannel (chanID appID : string) : prog (option error) :=
  Call (Save channelsRM chanID appID) (fun r => Return (repo_err r)).

Definition RemoveChannel (chanID : string) : prog (option error) :=
  Call (Remove channelsRM chanID) (fun r => Return (repo_err r)).

(** *** Running a method *)

(** A call that was made, with its answer. *)
Inductive event : Type :=
| Event {X : Type} (c : call X) (x : X).

Definition is_write (e : event) : bool :=
  match e with
  | Event (Save _ _ _) _ | Event (Remove _ _) _ => true
  | Event _ _ => false
  end.

Definition is_publish (e : event) : bool :=
  match e with
  | Event (broker_Publish _ _ _) _ => true
  | Event _ _ => false
  end.

Definition is_get_of (rm : repo) (e : event) : bool :=
  match e with
  | Event (Get thingsRM _) _ => match rm with thingsRM => true | _ => false end
  | Event (Get channelsRM _) _ => match rm with channelsRM => true | _ => false end
  | Event _ _ => false
  end.

(** The outcome of a run: what the method returned, the state the
    collaborators are left in, and the calls made, in order. *)
Record outcome (A W : Type) : Type := {
  result : A;
  final : W;
  trace : list event
}.

Arguments result {A W} o.
Arguments final {A W} o.
Arguments trace {A W} o.

(** [exec handle p w] runs [p] against collaborators in state [w] that
    answer a call [c] with [handle c]. *)
Fixpoint exec {A W : Type} (handle : forall X, call X -> W -> X * W)
    (p : prog A) (w : W) : outcome A W :=
  match p with
  | Return a => {| result := a; final := w; trace := [] |}
  | Call c k =>
      let '(x, w1) := handle _ c w in
      let o := exec handle (k x) w1 in
      {| result := result o; final := final o; trace := Event c x :: trace o |}
  end.

End Service.

Arguments Return {env A} a.
Arguments Call {env A X} c k.
Arguments Event {env X} c x.
Arguments result {env A W} o.
Arguments final {env A W} o.
Arguments trace {env A W} o.

(** ** Collaborators in memory

    An implementation of the three collaborators to run the service
    against: two route maps as finite maps, a clock that stands still and a
    bus that records what it is handed. *)
Module Mem.

(** Modelled from the spec: the route-map repository of section 4.1, a
    table with one internal value for an external key, over a backing
    store that may be unreachable.  The [RouteMapRepository] interface and
    its implementations are not part of service.go. *)
Record RouteMap : Type := {
  table : gmap string string;
  reachable : bool
}.

(** Modelled from the spec: [get(key)] returns the value associated with
    [key], fails with [NotFound] when there is none, and has no side
    effect. *)
Definition get (key : string) (rm : RouteMap) : string + repo_error :=
  if reachable rm then
    match table rm !! key with
    | Some v => inl v
    | None => inr NotFound
    end
  else inr StoreUnavailable.

(** Modelled from the spec: [save(key, value)] inserts or overwrites the
    association for [key]; it fails with [StoreUnavailable] only when the
    backing store is unavailable. *)
Definition save (key val : string) (rm : RouteMap)
  : option repo_error * RouteMap :=
  if reachable rm then
    (None, {| table := <[key := val]> (table rm); reachable := true |})
  else (Some StoreUnavailable, rm).

(** Modelled from the spec: [remove(internalIdentifier)] deletes the
    association whose internal value is the identifier, and succeeds when
    there is none. *)
Definition remove (id : string) (rm : RouteMap)
  : option repo_error * RouteMap :=
  if reachable rm then
    (None, {| table := filter (fun kv => kv.2 <> id) (table rm);
              reachable := true |})
  else (Some StoreUnavailable, rm).

Section World.

Context {env : Env}.

Record World : Type := {
  things : RouteMap;
  channels : RouteMap;
  clock : Time;
  bus_reply : option foreign_error;
  handed : list (context_Context * string * broker.Message)
}.

Definition repo_of (rm : repo) (w : World) : RouteMap :=
  match rm with
  | thingsRM => things w
  | channelsRM => channels w
  end.

Definition with_repo (rm : repo) (r : RouteMap) (w : World) : World :=
  match rm with
  | thingsRM =>
      {| things := r; channels := channels w; clock := clock w;
         bus_reply := bus_reply w; handed := handed w |}
  | channelsRM =>
      {| things := things w; channels := r; clock := clock w;
         bus_reply := bus_reply w; handed := handed w |}
  end.

(** Modelled from the spec: the methods of [RouteMapRepository] on these
    tables.  [Save] receives the internal identifier first and the external
    one second, as the service passes them ([Save(thingID, devEUI)],
    [Save(chanID, appID)]), and the table is keyed by the external
    identifier and valued by the internal one (sections 3 and 4.2): the
    device EUI is what [Publish] looks up and the thing ID is what [Remove]
    names. *)
Definition handle (X : Type) (c : call X) (w : World) : X * World :=
  match c in call X return X * World with
  | Get rm key => (get key (repo_of rm w), w)
  | Save rm internal external =>
      let '(r, t) := save external internal (repo_of rm w) in
      (r, with_repo rm t w)
  | Remove rm a =>
      let '(r, t) := remove a (repo_of rm w) in (r, with_repo rm t w)
  | time_Now => (clock w, w)
  | broker_Publish ctx token msg =>
      (bus_reply w,
       {| things := things w; channels := channels w; clock := clock w;
          bus_reply := bus_reply w;
          handed := handed w ++ [(ctx, token, msg)] |})
  end.

Definition run {A : Type} (p : prog A) (w : World) : outcome A World :=
  exec handle p w.

End World.

End Mem.

(** A sample of surroundings: a context is a name, and a value is known by
    what [json.Marshal] makes of it. *)
Inductive sample_value : Type :=
| Document (encoding : string)
| Unsupported (why : string).

#[local] Instance sample_env : Env := {|
  context_Context := string;
  value := sample_value;
  json_Marshal v :=
    match v with
    | Document encoding => inl (bytes_of_string encoding)
    | Unsupported why => inr (LibraryError "encoding/json" why)
    end
|}.

(** Sample states of the collaborators: nothing provisioned; the scenario
    of section 8 of the specification; a thing store that cannot be
    reached. *)
Definition noon : Time := {| Unix := 1572609600; Nanosecond := 0 |}.

Definition empty_map : Mem.RouteMap :=
  {| Mem.table := ∅; Mem.reachable := true |}.

Definition world_of (things channels : Mem.RouteMap) : Mem.World :=
  {| Mem.things := things; Mem.channels := channels; Mem.clock := noon;
     Mem.bus_reply := None; Mem.handed := [] |}.

Definition fresh_world : Mem.World := world_of empty_map empty_map.

Definition scenario_world : Mem.World :=
  world_of {| Mem.table := {["AA:BB" := "t1"]}; Mem.reachable := true |}
           {| Mem.table := {["app1" := "c1"]}; Mem.reachable := true |}.

Definition down_world : Mem.World :=
  world_of {| Mem.table := {["AA:BB" := "t1"]}; Mem.reachable := false |}
           {| Mem.table := {["app1" := "c1"]}; Mem.reachable := true |}.

Definition half_down_world : Mem.World :=
  world_of {| Mem.table := {["AA:BB" := "t1"]}; Mem.reachable := true |}
           {| Mem.table := {["app1" := "c1"]}; Mem.reachable := false |}.

Definition message (data : string) (object : option sample_value) : Message :=
  {| DevEUI := "AA:BB"; ApplicationID := "app1"; Data := data; Object := object |}.

(** A hand-over to the bus that the bus answered with nil. *)
Definition accepted {env : Env} (e : event) : bool :=
  match e with
  | Event c x =>
      match c in call X return X -> bool with
      | broker_Publish _ _ _ =>
          fun r => match r with None => true | Some _ => false end
      | _ => fun _ => false
      end x
  end.

(** Two more states: the first instant of the year 10000 on the clock, and a
    channel map without the application of the scenario. *)
Definition year_10000 : Time :=
  {| Unix := ptypes.maxValidSeconds; Nanosecond := 0 |}.

Definition late_world : Mem.World :=
  {| Mem.things := {| Mem.table := {["AA:BB" := "t1"]}; Mem.reachable := true |};
     Mem.channels := {| Mem.table := {["app1" := "c1"]}; Mem.reachable := true |};
     Mem.clock := year_10000;
     Mem.bus_reply := None;
     Mem.handed := [] |}.

Definition unrouted_world : Mem.World :=
  world_of {| Mem.table := {["AA:BB" := "t1"]}; Mem.reachable := true |} empty_map.

(** The envelope for a thing, a channel and a payload at a time a timestamp
    can hold, with the two constants of the wire contract written out. *)
Definition envelope (thing channel : string) (payload : list byte) (now : Time)
  : broker.Message :=
  {| broker.Publisher := thing;
     broker.Protocol := "lora";
     broker.ContentType := "application/json";
     broker.Channel := channel;
     broker.Payload := payload;
     broker.Created :=
       {| ptypes.Seconds := Unix now; ptypes.Nanos := Nanosecond now |} |}.

Section Paths.

Context {env : Env} {W : Type}.
Variable handle : forall X, call X -> W -> X * W.
Variables (ctx : context_Context) (token : string).

(** The five ways [Publish] can go, each with what the collaborators
    answered, what [Publish] returns and the calls it made. *)
Inductive Publish_path (m : Message) (w : W) : outcome (option error) W -> Prop :=
| path_no_thing (e : repo_error) (w1 : W) :
    handle _ (Get thingsRM (DevEUI m)) w = (inr e, w1) ->
    Publish_path m w
      {| result := Some ErrNotFoundDev; final := w1;
         trace := [Event (Get thingsRM (DevEUI m)) (inr e)] |}
| path_no_channel (thing : string) (e : repo_error) (w1 w2 : W) :
    handle _ (Get thingsRM (DevEUI m)) w = (inl thing, w1) ->
    handle _ (Get channelsRM (ApplicationID m)) w1 = (inr e, w2) ->
    Publish_path m w
      {| result := Some ErrNotFoundApp; final := w2;
         trace := [Event (Get thingsRM (DevEUI m)) (inl thing);
                   Event (Get channelsRM (ApplicationID m)) (inr e)] |}
| path_no_payload (thing channel : string) (err : error) (w1 w2 : W) :
    handle _ (Get thingsRM (DevEUI m)) w = (inl thing, w1) ->
    handle _ (Get channelsRM (ApplicationID m)) w1 = (inl channel, w2) ->
    payload_of m = inr err ->
    Publish_path m w
      {| result := Some err; final := w2;
         trace := [Event (Get thingsRM (DevEUI m)) (inl thing);
                   Event (Get channelsRM (ApplicationID m)) (inl channel)] |}
| path_no_timestamp (thing channel : string) (payload : list byte)
    (now : Time) (err : foreign_error) (w1 w2 w3 : W) :
    handle _ (Get thingsRM (DevEUI m)) w = (inl thing, w1) ->
    handle _ (Get channelsRM (ApplicationID m)) w1 = (inl channel, w2) ->
    payload_of m = inl payload ->
    handle _ time_Now w2 = (now, w3) ->
    ptypes.TimestampProto now = inr err ->
    Publish_path m w
      {| result := Some (Foreign err); final := w3;
         trace := [Event (Get thingsRM (DevEUI m)) (inl thing);
                   Event (Get channelsRM (ApplicationID m)) (inl channel);
                   Event time_Now now] |}
| path_published (thing channel : string) (payload : list byte)
    (now : Time) (r : option foreign_error) (w1 w2 w3 w4 : W) :
    handle _ (Get thingsRM (DevEUI m)) w = (inl thing, w1) ->
    handle _ (Get channelsRM (ApplicationID m)) w1 = (inl channel, w2) ->
    payload_of m = inl payload ->
    handle _ time_Now w2 = (now, w3) ->
    representable now ->
    handle _ (broker_Publish ctx token (envelope thing channel payload now)) w3
      = (r, w4) ->
    Publish_path m w
      {| result := option_map Foreign r; final := w4;
         trace := [Event (Get thingsRM (DevEUI m)) (inl thing);
                   Event (Get channelsRM (ApplicationID m)) (inl channel);
                   Event time_Now now;
                   Event (broker_Publish ctx token
                            (envelope thing channel payload now)) r] |}.

End Paths.

(** * Properties *)

(** ** The decoder on the inputs of RFC 4648, section 10 *)

Example decode_empty : base64.DecodeString "" = ([], None).
Proof. reflexivity. Qed.

Example decode_f : base64.DecodeString "Zg==" = (bytes_of_string "f", None).
Proof. reflexivity. Qed.

Example decode_fo : base64.DecodeString "Zm8=" = (bytes_of_string "fo", None).
Proof. reflexivity. Qed.

Example decode_foo : base64.DecodeString "Zm9v" = (bytes_of_string "foo", None).
Proof. reflexivity. Qed.

Example decode_foobar :
  base64.DecodeString "Zm9vYmFy" = (bytes_of_string "foobar", None).
Proof. reflexivity. Qed.

Example decode_hello :
  base64.DecodeString "aGVsbG8=" = (bytes_of_string "hello", None).
Proof. reflexivity. Qed.

Example decode_not_base64 :
  snd (base64.DecodeString "!!!not-base64!!!") = Some 0.
Proof. reflexivity. Qed.

Example decode_missing_padding : snd (base64.DecodeString "Zg=") = Some 3.
Proof. reflexivity. Qed.

(** ** Running a program step by step *)

Section Steps.

Context {env : Env} {A W : Type}.
Variable handle : forall X, call X -> W -> X * W.

Lemma exec_Return (a : A) (w : W) :
  exec handle (Return a) w = {| result := a; final := w; trace := [] |}.
Proof. reflexivity. Qed.

Lemma exec_Call {X : Type} (c : call X) (k : X -> prog A) (w w1 : W) (x : X) :
  handle X c w = (x, w1) ->
  exec handle (Call c k) w =
  {| result := result (exec handle (k x) w1);
     final := final (exec handle (k x) w1);
     trace := Event c x :: trace (exec handle (k x) w1) |}.
Proof. intros H. cbn [exec]. rewrite H. reflexivity. Qed.

End Steps.

Lemma TimestampProto_representable (t : Time) :
  representable t ->
  ptypes.TimestampProto t =
  inl {| ptypes.Seconds := Unix t; ptypes.Nanos := Nanosecond t |}.
Proof.
  intros [[Hmin Hmax] [Hlo Hhi]].
  unfold ptypes.TimestampProto, ptypes.validateTimestamp. cbn [ptypes.Seconds ptypes.Nanos].
  destruct (Z.ltb_spec (Unix t) ptypes.minValidSeconds); [lia |].
  destruct (Z.leb_spec ptypes.maxValidSeconds (Unix t)); [lia |].
  destruct (Z.ltb_spec (Nanosecond t) 0); [lia |].
  destruct (Z.leb_spec 1000000000 (Nanosecond t)); [lia |].
  reflexivity.
Qed.

Ltac representable_now :=
  unfold representable, ptypes.minValidSeconds, ptypes.maxValidSeconds;
  cbn; lia.

(** ** Forwarding a message *)

Section Forwarding.

Context {env : Env} {W : Type}.
Variable handle : forall X, call X -> W -> X * W.
Variables (ctx : context_Context) (token : string).

(** Once both identities are resolved and the payload is determined,
    [Publish] reads the clock and hands one envelope to the bus. *)
Lemma Publish_resolved (m : Message) (w w1 w2 w3 w4 : W)
    (thing channel : string) (payload : list byte) (now : Time)
    (r : option foreign_error) :
  handle _ (Get thingsRM (DevEUI m)) w = (inl thing, w1) ->
  handle _ (Get channelsRM (ApplicationID m)) w1 = (inl channel, w2) ->
  payload_of m = inl payload ->
  handle _ time_Now w2 = (now, w3) ->
  representable now ->
  handle _ (broker_Publish ctx token (envelope thing channel payload now)) w3
    = (r, w4) ->
  exec handle (Publish ctx token m) w =
  {| result := option_map Foreign r;
     final := w4;
     trace :=
       [Event (Get thingsRM (DevEUI m)) (inl thing);
        Event (Get channelsRM (ApplicationID m)) (inl channel);
        Event time_Now now;
        Event (broker_Publish ctx token (envelope thing channel payload now)) r]
  |}.
Proof.
  intros Hthing Hchannel Hpayload Hnow Hrep Hbus. unfold Publish.
  rewrite (exec_Call handle _ _ _ _ _ Hthing). cbn beta iota.
  rewrite (exec_Call handle _ _ _ _ _ Hchannel). cbn beta iota.
  rewrite Hpayload.
  rewrite (exec_Call handle _ _ _ _ _ Hnow). cbn beta iota.
  rewrite (TimestampProto_representable _ Hrep). cbn beta iota zeta.
  rewrite (exec_Call handle _ _ _ _ _ Hbus).
  reflexivity.
Qed.

(** When both identities are resolved and the payload cannot be
    determined, [Publish] returns the error of [payload_of] after the two
    lookups. *)
Lemma Publish_no_payload (m : Message) (w w1 w2 : W)
    (thing channel : string) (err : error) :
  handle _ (Get thingsRM (DevEUI m)) w = (inl thing, w1) ->
  handle _ (Get channelsRM (ApplicationID m)) w1 = (inl channel, w2) ->
  payload_of m = inr err ->
  exec handle (Publish ctx token m) w =
  {| result := Some err;
     final := w2;
     trace :=
       [Event (Get thingsRM (DevEUI m)) (inl thing);
        Event (Get channelsRM (ApplicationID m)) (inl channel)] |}.
Proof.
  intros Hthing Hchannel Hpayload. unfold Publish.
  rewrite (exec_Call handle _ _ _ _ _ Hthing). cbn beta iota.
  rewrite (exec_Call handle _ _ _ _ _ Hchannel). cbn beta iota.
  rewrite Hpayload. reflexivity.
Qed.

(** C3: when the thing route map has no association for the device EUI of
    the message, [Publish] fails with [ErrNotFoundDev] after that one
    lookup: the channel route map is not consulted, the payload is not
    looked at and nothing reaches the bus, whatever the application ID. *)
Theorem Publish_unmapped_device (m : Message) (w w1 : W) :
  handle _ (Get thingsRM (DevEUI m)) w = (inr NotFound, w1) ->
  exec handle (Publish ctx token m) w =
  {| result := Some ErrNotFoundDev;
     final := w1;
     trace := [Event (Get thingsRM (DevEUI m)) (inr NotFound)] |}.
Proof.
  intros Hthing. unfold Publish.
  rewrite (exec_Call handle _ _ _ _ _ Hthing). reflexivity.
Qed.

(** C5: a message without object whose data is not valid base64 fails
    with [ErrMalformedMessage] once both identities are resolved, and the
    bus is handed nothing. *)
Theorem Publish_bad_base64 (m : Message) (w w1 w2 : W)
    (thing channel : string) :
  Object m = None ->
  snd (base64.DecodeString (Data m)) <> None ->
  handle _ (Get thingsRM (DevEUI m)) w = (inl thing, w1) ->
  handle _ (Get channelsRM (ApplicationID m)) w1 = (inl channel, w2) ->
  result (exec handle (Publish ctx token m) w) = Some ErrMalformedMessage /\
  filter is_publish (trace (exec handle (Publish ctx token m) w)) = [].
Proof.
  intros Hobject Hdata Hthing Hchannel.
  assert (Hpayload : payload_of m = inr ErrMalformedMessage).
  { unfold payload_of. rewrite Hobject.
    destruct (base64.DecodeString (Data m)) as [payload [err|]]; [reflexivity |].
    now contradiction Hdata. }
  rewrite (Publish_no_payload m w w1 w2 thing channel _ Hthing Hchannel Hpayload).
  split; reflexivity.
Qed.

(** C7: a message without object, with valid base64 data and both
    identities mapped: the bus is handed exactly one envelope, whose
    publisher is the thing, whose channel is the channel, whose protocol
    is "lora", whose content type is "application/json" and whose payload
    is the decoded data.  The clock reads a time a timestamp can hold. *)
Theorem Publish_forwards (m : Message) (w w1 w2 w3 : W)
    (thing channel : string) (payload : list byte) (now : Time) :
  Object m = None ->
  base64.DecodeString (Data m) = (payload, None) ->
  handle _ (Get thingsRM (DevEUI m)) w = (inl thing, w1) ->
  handle _ (Get channelsRM (ApplicationID m)) w1 = (inl channel, w2) ->
  handle _ time_Now w2 = (now, w3) ->
  representable now ->
  exists r : option foreign_error,
    filter is_publish (trace (exec handle (Publish ctx token m) w)) =
    [Event (broker_Publish ctx token
              {| broker.Publisher := thing;
                 broker.Protocol := "lora";
                 broker.ContentType := "application/json";
                 broker.Channel := channel;
                 broker.Payload := payload;
                 broker.Created :=
                   {| ptypes.Seconds := Unix now;
                      ptypes.Nanos := Nanosecond now |} |}) r] /\
    result (exec handle (Publish ctx token m) w) = option_map Foreign r.
Proof.
  intros Hobject Hdata Hthing Hchannel Hnow Hrep.
  assert (Hpayload : payload_of m = inl payload).
  { unfold payload_of. rewrite Hobject, Hdata. reflexivity. }
  destruct (handle _ (broker_Publish ctx token
                        (envelope thing channel payload now)) w3)
    as [r w4] eqn:Hbus.
  exists r.
  rewrite (Publish_resolved m w w1 w2 w3 w4 thing channel payload now r
             Hthing Hchannel Hpayload Hnow Hrep Hbus).
  split; reflexivity.
Qed.

(** C10: a message without object whose data is the empty string, with
    both identities mapped: the empty string decodes, the bus is handed
    one envelope with an empty payload, and the outcome is not
    [ErrMalformedMessage].  The clock reads a time a timestamp can hold. *)
Theorem Publish_empty_data (m : Message) (w w1 w2 w3 : W)
    (thing channel : string) (now : Time) :
  Object m = None ->
  Data m = "" ->
  handle _ (Get thingsRM (DevEUI m)) w = (inl thing, w1) ->
  handle _ (Get channelsRM (ApplicationID m)) w1 = (inl channel, w2) ->
  handle _ time_Now w2 = (now, w3) ->
  representable now ->
  base64.DecodeString (Data m) = ([], None) /\
  result (exec handle (Publish ctx token m) w) <> Some ErrMalformedMessage /\
  exists r : option foreign_error,
    filter is_publish (trace (exec handle (Publish ctx token m) w)) =
    [Event (broker_Publish ctx token
              {| broker.Publisher := thing;
                 broker.Protocol := "lora";
                 broker.ContentType := "application/json";
                 broker.Channel := channel;
                 broker.Payload := [];
                 broker.Created :=
                   {| ptypes.Seconds := Unix now;
                      ptypes.Nanos := Nanosecond now |} |}) r].
Proof.
  intros Hobject Hdata Hthing Hchannel Hnow Hrep.
  assert (Hdecode : base64.DecodeString (Data m) = ([], None)).
  { rewrite Hdata. reflexivity. }
  assert (Hpayload : payload_of m = inl []).
  { unfold payload_of. rewrite Hobject, Hdecode. reflexivity. }
  destruct (handle _ (broker_Publish ctx token (envelope thing channel [] now)) w3)
    as [r w4] eqn:Hbus.
  rewrite (Publish_resolved m w w1 w2 w3 w4 thing channel [] now r
             Hthing Hchannel Hpayload Hnow Hrep Hbus).
  split; [exact Hdecode | split].
  - cbn [result]. destruct r; discriminate.
  - exists r. reflexivity.
Qed.

(** C2, as the code has it: when a lookup made by [Publish] fails, for
    whatever reason, [Publish] returns [ErrNotFoundDev] if it was the
    lookup of the thing and [ErrNotFoundApp] if it was the lookup of the
    channel; the error of the repository is not returned. *)
Theorem Publish_lookup_error (m : Message) (w : W) (rm : repo) (e : repo_error) :
  match rm with
  | thingsRM => fst (handle _ (Get thingsRM (DevEUI m)) w) = inr e
  | channelsRM =>
      exists thing : string,
        fst (handle _ (Get thingsRM (DevEUI m)) w) = inl thing /\
        fst (handle _ (Get channelsRM (ApplicationID m))
               (snd (handle _ (Get thingsRM (DevEUI m)) w))) = inr e
  end ->
  result (exec handle (Publish ctx token m) w) =
  Some (match rm with
        | thingsRM => ErrNotFoundDev
        | channelsRM => ErrNotFoundApp
        end) /\
  result (exec handle (Publish ctx token m) w) <>
  Some (Foreign (RepositoryError e)).
Proof.
  intros H. unfold Publish.
  destruct (handle _ (Get thingsRM (DevEUI m)) w) as [r1 w1] eqn:Hthing.
  rewrite (exec_Call handle _ _ _ _ _ Hthing).
  destruct rm; cbn [fst snd] in H.
  - subst r1. split; [reflexivity | discriminate].
  - destruct H as [thing [-> H]]. cbn beta iota.
    destruct (handle _ (Get channelsRM (ApplicationID m)) w1) as [r2 w2] eqn:Hchannel.
    rewrite (exec_Call handle _ _ _ _ _ Hchannel).
    cbn [fst] in H. subst r2. split; [reflexivity | discriminate].
Qed.

(** C6, as the code has it: when the object of a message is present and
    [json.Marshal] fails on it, [Publish] returns the error of
    [json.Marshal] unchanged once both identities are resolved, and the
    bus is handed nothing. *)
Theorem Publish_marshal_error (m : Message) (w w1 w2 : W)
    (thing channel : string) (o : value) (err : foreign_error) :
  Object m = Some o ->
  json_Marshal o = inr err ->
  handle _ (Get thingsRM (DevEUI m)) w = (inl thing, w1) ->
  handle _ (Get channelsRM (ApplicationID m)) w1 = (inl channel, w2) ->
  result (exec handle (Publish ctx token m) w) = Some (Foreign err) /\
  filter is_publish (trace (exec handle (Publish ctx token m) w)) = [].
Proof.
  intros Hobject Hmarshal Hthing Hchannel.
  assert (Hpayload : payload_of m = inr (Foreign err)).
  { unfold payload_of. rewrite Hobject, Hmarshal. reflexivity. }
  rewrite (Publish_no_payload m w w1 w2 thing channel _ Hthing Hchannel Hpayload).
  split; reflexivity.
Qed.

(** With an object, the payload is what [json.Marshal] makes of it. *)
Lemma payload_of_object (m : Message) (o : value) :
  Object m = Some o ->
  payload_of m =
  match json_Marshal o with
  | inr err => inr (Foreign err)
  | inl jo => inl jo
  end.
Proof. intros H. unfold payload_of. rewrite H. reflexivity. Qed.

(** The error [Publish] returns is one of the two lookup errors, the
    error of [payload_of], or an error of [ptypes] or of the bus. *)
Lemma Publish_result (m : Message) (w : W) (err : error) :
  result (exec handle (Publish ctx token m) w) = Some err ->
  err = ErrNotFoundDev \/ err = ErrNotFoundApp \/
  payload_of m = inr err \/ exists e, err = Foreign e.
Proof.
  unfold Publish.
  destruct (handle _ (Get thingsRM (DevEUI m)) w) as [[thing|e1] w1] eqn:Hthing;
    rewrite (exec_Call handle _ _ _ _ _ Hthing); cbn beta iota;
    [| cbn; intros [= <-]; auto].
  destruct (handle _ (Get channelsRM (ApplicationID m)) w1)
    as [[channel|e2] w2] eqn:Hchannel;
    rewrite (exec_Call handle _ _ _ _ _ Hchannel); cbn beta iota;
    [| cbn; intros [= <-]; auto].
  destruct (payload_of m) as [payload|e3]; [| cbn; intros [= <-]; auto].
  destruct (handle _ time_Now w2) as [now w3] eqn:Hnow.
  rewrite (exec_Call handle _ _ _ _ _ Hnow); cbn beta iota.
  destruct (ptypes.TimestampProto now) as [created|e4];
    [| cbn; intros [= <-]; eauto].
  cbn zeta.
  match goal with
  | |- context [exec handle (Call ?c ?k) w3] =>
      destruct (handle _ c w3) as [r w4] eqn:Hbus;
      rewrite (exec_Call handle c k w3 w4 r Hbus)
  end.
  cbn. destruct r as [e5|]; cbn; [intros [= <-]; eauto | discriminate].
Qed.

(** C4: with an object present, the outcome of [Publish] does not depend
    on the data: two messages that differ in their data only return the
    same result, leave the collaborators in the same state and make the
    same calls, the envelope handed to the bus included; and the result
    is not [ErrMalformedMessage], whatever the data. *)
Theorem Publish_object_ignores_data (m1 m2 : Message) (w : W) :
  DevEUI m1 = DevEUI m2 ->
  ApplicationID m1 = ApplicationID m2 ->
  Object m1 = Object m2 ->
  Object m1 <> None ->
  exec handle (Publish ctx token m1) w = exec handle (Publish ctx token m2) w /\
  result (exec handle (Publish ctx token m1) w) <> Some ErrMalformedMessage.
Proof.
  intros Hdev Happ Hobject Hpresent.
  destruct (Object m1) as [o|] eqn:Ho; [clear Hpresent | now contradiction Hpresent].
  split.
  - destruct m1 as [dev1 app1 data1 obj1], m2 as [dev2 app2 data2 obj2].
    cbn in Hdev, Happ, Hobject, Ho. subst. reflexivity.
  - intros Hres. apply Publish_result in Hres.
    rewrite (payload_of_object m1 o Ho) in Hres.
    destruct Hres as [H | [H | [H | [e H]]]]; try discriminate.
    destruct (json_Marshal o); discriminate.
Qed.

(** Whatever [Publish] does not write, it leaves as it was: an
    observation of the collaborators that lookups, the clock and the bus
    do not change is the same after [Publish]. *)
Lemma Publish_frame {B : Type} (f : W -> B) (m : Message) (w : W) :
  (forall rm key w, f (snd (handle _ (Get rm key) w)) = f w) ->
  (forall w, f (snd (handle _ time_Now w)) = f w) ->
  (forall c t msg w, f (snd (handle _ (broker_Publish c t msg) w)) = f w) ->
  f (final (exec handle (Publish ctx token m) w)) = f w.
Proof.
  intros Hget Hnow Hbus. unfold Publish.
  destruct (handle _ (Get thingsRM (DevEUI m)) w) as [[thing|e1] w1] eqn:Hthing;
    rewrite (exec_Call handle _ _ _ _ _ Hthing); cbn beta iota;
    assert (H1 : f w1 = f w)
      by (rewrite <- (Hget thingsRM (DevEUI m) w), Hthing; reflexivity);
    [| exact H1].
  destruct (handle _ (Get channelsRM (ApplicationID m)) w1)
    as [[channel|e2] w2] eqn:Hchannel;
    rewrite (exec_Call handle _ _ _ _ _ Hchannel); cbn beta iota;
    assert (H2 : f w2 = f w)
      by (rewrite <- H1, <- (Hget channelsRM (ApplicationID m) w1), Hchannel;
          reflexivity);
    [| exact H2].
  destruct (payload_of m) as [payload|e3]; [| exact H2].
  destruct (handle _ time_Now w2) as [now w3] eqn:Hclock.
  rewrite (exec_Call handle _ _ _ _ _ Hclock); cbn beta iota.
  assert (H3 : f w3 = f w)
    by (rewrite <- H2, <- (Hnow w2), Hclock; reflexivity).
  destruct (ptypes.TimestampProto now) as [created|e4]; [| exact H3].
  cbn zeta.
  match goal with
  | |- context [exec handle (Call ?c ?k) w3] =>
      destruct (handle _ c w3) as [r w4] eqn:Hpub;
      rewrite (exec_Call handle c k w3 w4 r Hpub);
      match c with
      | broker_Publish ?c0 ?t0 ?msg0 =>
          cbn [final exec]; rewrite <- H3, <- (Hbus c0 t0 msg0 w3), Hpub
      end
  end.
  reflexivity.
Qed.

(** The calls of [Publish] are lookups, a reading of the clock and a
    hand-over to the bus. *)
Lemma Publish_makes_no_write (m : Message) (w : W) :
  forallb (fun e => negb (is_write e))
    (trace (exec handle (Publish ctx token m) w)) = true.
Proof.
  unfold Publish.
  destruct (handle _ (Get thingsRM (DevEUI m)) w) as [[thing|e1] w1] eqn:Hthing;
    rewrite (exec_Call handle _ _ _ _ _ Hthing); cbn beta iota;
    [| reflexivity].
  destruct (handle _ (Get channelsRM (ApplicationID m)) w1)
    as [[channel|e2] w2] eqn:Hchannel;
    rewrite (exec_Call handle _ _ _ _ _ Hchannel); cbn beta iota;
    [| reflexivity].
  destruct (payload_of m) as [payload|e3]; [| reflexivity].
  destruct (handle _ time_Now w2) as [now w3] eqn:Hclock.
  rewrite (exec_Call handle _ _ _ _ _ Hclock); cbn beta iota.
  destruct (ptypes.TimestampProto now) as [created|e4]; [| reflexivity].
  cbn zeta.
  match goal with
  | |- context [exec handle (Call ?c ?k) w3] =>
      destruct (handle _ c w3) as [r w4] eqn:Hpub;
      rewrite (exec_Call handle c k w3 w4 r Hpub)
  end.
  reflexivity.
Qed.

End Forwarding.

(** The collaborators in memory answer a lookup, the clock and the bus
    without touching a route map. *)
Lemma Mem_frame {env : Env} (rm : repo) (ctx : context_Context)
    (token : string) (m : Message) (w : Mem.World) :
  Mem.repo_of rm (final (Mem.run (Publish ctx token m) w)) = Mem.repo_of rm w.
Proof.
  unfold Mem.run.
  apply (Publish_frame Mem.handle ctx token (Mem.repo_of rm)); intros;
    destruct rm; reflexivity.
Qed.

(** C9: [Publish] leaves both route maps as they were.  Against any
    collaborators, none of its calls is a [Save] or a [Remove]; against the
    collaborators in memory, whose lookups have no side effect, the thing
    map and the channel map are the same after the call as before. *)
Theorem Publish_read_only {env : Env} {W : Type}
    (handle : forall X, call X -> W -> X * W)
    (ctx : context_Context) (token : string) (m : Message)
    (w : W) (mw : Mem.World) :
  forallb (fun e => negb (is_write e))
    (trace (exec handle (Publish ctx token m) w)) = true /\
  Mem.things (final (Mem.run (Publish ctx token m) mw)) = Mem.things mw /\
  Mem.channels (final (Mem.run (Publish ctx token m) mw)) = Mem.channels mw.
Proof.
  split; [apply Publish_makes_no_write | split].
  - exact (Mem_frame thingsRM ctx token m mw).
  - exact (Mem_frame channelsRM ctx token m mw).
Qed.

(** ** Identity management *)

Section Identities.

Context {env : Env}.

(** A save on a reachable route map makes the lookup of its first
    argument return its second argument, whatever was there before. *)
Lemma get_save (a b : string) (rm : Mem.RouteMap) :
  Mem.reachable rm = true ->
  Mem.save a b rm =
    (None, {| Mem.table := <[a := b]> (Mem.table rm); Mem.reachable := true |}) /\
  Mem.get a (snd (Mem.save a b rm)) = inl b.
Proof.
  intros Hup. unfold Mem.save. rewrite Hup. split; [reflexivity |].
  unfold Mem.get. cbn. rewrite lookup_insert_eq. reflexivity.
Qed.

(** C1: [CreateThing(thingID, devEUI)] stores the association with the
    device EUI as the external key and the thing ID as the internal value.
    Its one call is [Save(thingID, devEUI)] on the thing repository, and
    what the call does to the table is [save(key = devEUI, value =
    thingID)]: the arguments of the public signature, inverted.  On a table
    that can be reached the lookup of the device EUI then returns the thing
    ID.  [CreateChannel(chanID, appID)] does the same on the channel
    repository, with the application ID as the key and the channel ID as
    the value. *)
Theorem Create_keys_by_external_id (w : Mem.World)
    (thingID devEUI chanID appID : string) :
  Mem.reachable (Mem.things w) = true ->
  Mem.reachable (Mem.channels w) = true ->
  (Mem.run (CreateThing thingID devEUI) w =
     {| result := repo_err (fst (Mem.save devEUI thingID (Mem.things w)));
        final := Mem.with_repo thingsRM
                   (snd (Mem.save devEUI thingID (Mem.things w))) w;
        trace := [Event (Save thingsRM thingID devEUI)
                    (fst (Mem.save devEUI thingID (Mem.things w)))] |} /\
   Mem.get devEUI (Mem.things (final (Mem.run (CreateThing thingID devEUI) w)))
     = inl thingID) /\
  (Mem.run (CreateChannel chanID appID) w =
     {| result := repo_err (fst (Mem.save appID chanID (Mem.channels w)));
        final := Mem.with_repo channelsRM
                   (snd (Mem.save appID chanID (Mem.channels w))) w;
        trace := [Event (Save channelsRM chanID appID)
                    (fst (Mem.save appID chanID (Mem.channels w)))] |} /\
   Mem.get appID (Mem.channels (final (Mem.run (CreateChannel chanID appID) w)))
     = inl chanID).
Proof.
  intros Hthings Hchannels.
  destruct (get_save devEUI thingID (Mem.things w) Hthings) as [Hs1 Hg1].
  destruct (get_save appID chanID (Mem.channels w) Hchannels) as [Hs2 Hg2].
  unfold Mem.run, CreateThing, CreateChannel.
  cbn [exec Mem.handle Mem.repo_of].
  rewrite Hs1, Hs2 in *. cbn. auto.
Qed.

(** C8: create and update are one operation.  [CreateThing] and
    [UpdateThing] are the same program, and so are [CreateChannel] and
    [UpdateChannel]: against any collaborators they make the same call,
    return the same result and leave the same state.  The call is a save,
    which overwrites: after a create and an update with the same external
    key (the same device EUI, the same application ID) on a table that can
    be reached, the lookup of the key returns the identifier of the update,
    and the table is the one the update alone would have left: the key has
    one value, not two. *)
Theorem create_is_update (w : Mem.World) (ext old new : string) :
  Mem.reachable (Mem.things w) = true ->
  Mem.reachable (Mem.channels w) = true ->
  CreateThing = UpdateThing /\
  CreateChannel = UpdateChannel /\
  (forall (W : Type) (handle : forall X, call X -> W -> X * W) (s : W)
          (a b : string),
      exec handle (CreateThing a b) s = exec handle (UpdateThing a b) s /\
      exec handle (CreateChannel a b) s = exec handle (UpdateChannel a b) s) /\
  (Mem.get ext
     (Mem.things
        (final (Mem.run (UpdateThing new ext)
                  (final (Mem.run (CreateThing old ext) w))))) = inl new /\
   Mem.things
     (final (Mem.run (UpdateThing new ext)
               (final (Mem.run (CreateThing old ext) w)))) =
   Mem.things (final (Mem.run (UpdateThing new ext) w))) /\
  (Mem.get ext
     (Mem.channels
        (final (Mem.run (UpdateChannel new ext)
                  (final (Mem.run (CreateChannel old ext) w))))) = inl new /\
   Mem.channels
     (final (Mem.run (UpdateChannel new ext)
               (final (Mem.run (CreateChannel old ext) w)))) =
   Mem.channels (final (Mem.run (UpdateChannel new ext) w))).
Proof.
  intros Hthings Hchannels.
  split; [reflexivity | split; [reflexivity | split; [split; reflexivity |]]].
  destruct (get_save ext old (Mem.things w) Hthings) as [Hs1 _].
  destruct (get_save ext old (Mem.channels w) Hchannels) as [Hs2 _].
  destruct (get_save ext new (Mem.things w) Hthings) as [Hn1 _].
  destruct (get_save ext new (Mem.channels w) Hchannels) as [Hn2 _].
  unfold Mem.run, CreateThing, UpdateThing, CreateChannel, UpdateChannel.
  cbn [exec Mem.handle Mem.repo_of].
  rewrite Hs1, Hs2, Hn1, Hn2. cbn.
  unfold Mem.get. cbn. rewrite !lookup_insert_eq, !insert_insert_eq. auto.
Qed.

End Identities.

(** ** The properties at work

    The scenario of the specification and its variations, run against the
    collaborators in memory. *)

Lemma Create_keys_by_external_id_witness :
  (Mem.run (CreateThing "t1" "AA:BB") fresh_world =
     {| result := repo_err (fst (Mem.save "AA:BB" "t1" (Mem.things fresh_world)));
        final := Mem.with_repo thingsRM
                   (snd (Mem.save "AA:BB" "t1" (Mem.things fresh_world)))
                   fresh_world;
        trace := [Event (Save thingsRM "t1" "AA:BB")
                    (fst (Mem.save "AA:BB" "t1" (Mem.things fresh_world)))] |} /\
   Mem.get "AA:BB"
     (Mem.things (final (Mem.run (CreateThing "t1" "AA:BB") fresh_world)))
     = inl "t1") /\
  (Mem.run (CreateChannel "c1" "app1") fresh_world =
     {| result := repo_err (fst (Mem.save "app1" "c1" (Mem.channels fresh_world)));
        final := Mem.with_repo channelsRM
                   (snd (Mem.save "app1" "c1" (Mem.channels fresh_world)))
                   fresh_world;
        trace := [Event (Save channelsRM "c1" "app1")
                    (fst (Mem.save "app1" "c1" (Mem.channels fresh_world)))] |} /\
   Mem.get "app1"
     (Mem.channels (final (Mem.run (CreateChannel "c1" "app1") fresh_world)))
     = inl "c1").
Proof.
  apply (Create_keys_by_external_id fresh_world "t1" "AA:BB" "c1" "app1");
    reflexivity.
Defined.

Lemma Publish_lookup_error_witness :
  (result (Mem.run (Publish "ctx" "token" (message "aGVsbG8=" None)) down_world)
     = Some ErrNotFoundDev /\
   result (Mem.run (Publish "ctx" "token" (message "aGVsbG8=" None)) down_world)
     <> Some (Foreign (RepositoryError StoreUnavailable))) /\
  (result (Mem.run (Publish "ctx" "token" (message "aGVsbG8=" None)) half_down_world)
     = Some ErrNotFoundApp /\
   result (Mem.run (Publish "ctx" "token" (message "aGVsbG8=" None)) half_down_world)
     <> Some (Foreign (RepositoryError StoreUnavailable))).
Proof.
  split.
  - apply (Publish_lookup_error (env := sample_env) Mem.handle "ctx" "token" (message "aGVsbG8=" None)
             down_world thingsRM StoreUnavailable).
    reflexivity.
  - apply (Publish_lookup_error (env := sample_env) Mem.handle "ctx" "token" (message "aGVsbG8=" None)
             half_down_world channelsRM StoreUnavailable).
    exists "t1". split; reflexivity.
Defined.

(** The claim C2 fails: the thing store cannot be reached, its lookup
    fails with [StoreUnavailable], and [Publish] returns [ErrNotFoundDev]. *)
Lemma Publish_hides_store_error :
  fst (Mem.handle _ (Get thingsRM "AA:BB") down_world) = inr StoreUnavailable /\
  result (Mem.run (Publish "ctx" "token" (message "aGVsbG8=" None)) down_world)
    = Some ErrNotFoundDev /\
  result (Mem.run (Publish "ctx" "token" (message "aGVsbG8=" None)) down_world)
    <> Some (Foreign (RepositoryError StoreUnavailable)).
Proof.
  repeat split; try reflexivity; vm_compute; discriminate.
Qed.

Lemma Publish_unmapped_device_witness :
  exec Mem.handle (Publish "ctx" "token" (message "!!!not-base64!!!" None))
    fresh_world =
  {| result := Some ErrNotFoundDev;
     final := fresh_world;
     trace := [Event (Get thingsRM "AA:BB") (inr NotFound)] |}.
Proof.
  apply (Publish_unmapped_device (env := sample_env) Mem.handle "ctx" "token"
           (message "!!!not-base64!!!" None) fresh_world fresh_world).
  reflexivity.
Defined.

Lemma Publish_object_ignores_data_witness :
  exec Mem.handle
    (Publish "ctx" "token" (message "!!!not-base64!!!" (Some (Document "[21.5]"))))
    scenario_world =
  exec Mem.handle
    (Publish "ctx" "token" (message "aGVsbG8=" (Some (Document "[21.5]"))))
    scenario_world /\
  result (exec Mem.handle
            (Publish "ctx" "token"
               (message "!!!not-base64!!!" (Some (Document "[21.5]"))))
            scenario_world) <> Some ErrMalformedMessage.
Proof.
  apply (Publish_object_ignores_data (env := sample_env) Mem.handle "ctx" "token"
           (message "!!!not-base64!!!" (Some (Document "[21.5]")))
           (message "aGVsbG8=" (Some (Document "[21.5]"))) scenario_world);
    try reflexivity.
  discriminate.
Defined.

Lemma Publish_bad_base64_witness :
  result (exec Mem.handle (Publish "ctx" "token" (message "!!!not-base64!!!" None))
            scenario_world) = Some ErrMalformedMessage /\
  filter is_publish
    (trace (exec Mem.handle (Publish "ctx" "token" (message "!!!not-base64!!!" None))
              scenario_world)) = [].
Proof.
  apply (Publish_bad_base64 (env := sample_env) Mem.handle "ctx" "token" (message "!!!not-base64!!!" None)
           scenario_world scenario_world scenario_world "t1" "c1");
    try reflexivity.
  vm_compute. discriminate.
Defined.

Lemma Publish_marshal_error_witness :
  result (exec Mem.handle
            (Publish "ctx" "token" (message "aGVsbG8=" (Some (Unsupported "chan int"))))
            scenario_world)
    = Some (Foreign (LibraryError "encoding/json" "chan int")) /\
  filter is_publish
    (trace (exec Mem.handle
              (Publish "ctx" "token" (message "aGVsbG8=" (Some (Unsupported "chan int"))))
              scenario_world)) = [].
Proof.
  apply (Publish_marshal_error (env := sample_env) Mem.handle "ctx" "token"
           (message "aGVsbG8=" (Some (Unsupported "chan int")))
           scenario_world scenario_world scenario_world "t1" "c1"
           (Unsupported "chan int"));
    reflexivity.
Defined.

(** The claim C6 fails: the object cannot be serialized, and [Publish]
    returns the error of [json.Marshal], which is not
    [ErrMalformedMessage]. *)
Lemma marshal_failure_is_not_malformed :
  result (Mem.run
            (Publish "ctx" "token" (message "aGVsbG8=" (Some (Unsupported "chan int"))))
            scenario_world)
    = Some (Foreign (LibraryError "encoding/json" "chan int")) /\
  result (Mem.run
            (Publish "ctx" "token" (message "aGVsbG8=" (Some (Unsupported "chan int"))))
            scenario_world)
    <> Some ErrMalformedMessage.
Proof.
  split; [reflexivity | vm_compute; discriminate].
Qed.

(** The scenario of the specification, end to end. *)
Lemma Publish_forwards_witness :
  exists r : option foreign_error,
    filter is_publish
      (trace (exec Mem.handle (Publish "ctx" "token" (message "aGVsbG8=" None))
                scenario_world)) =
    [Event (broker_Publish "ctx" "token"
              {| broker.Publisher := "t1";
                 broker.Protocol := "lora";
                 broker.ContentType := "application/json";
                 broker.Channel := "c1";
                 broker.Payload := bytes_of_string "hello";
                 broker.Created :=
                   {| ptypes.Seconds := Unix noon;
                      ptypes.Nanos := Nanosecond noon |} |}) r] /\
    result (exec Mem.handle (Publish "ctx" "token" (message "aGVsbG8=" None))
              scenario_world) = option_map Foreign r.
Proof.
  apply (Publish_forwards (env := sample_env) Mem.handle "ctx" "token" (message "aGVsbG8=" None)
           scenario_world scenario_world scenario_world scenario_world
           "t1" "c1" (bytes_of_string "hello") noon);
    try reflexivity.
  representable_now.
Defined.

Lemma create_is_update_witness :
  CreateThing = UpdateThing /\
  CreateChannel = UpdateChannel /\
  (forall (W : Type) (handle : forall X, call X -> W -> X * W) (s : W)
          (a b : string),
      exec handle (CreateThing a b) s = exec handle (UpdateThing a b) s /\
      exec handle (CreateChannel a b) s = exec handle (UpdateChannel a b) s) /\
  (Mem.get "AA:BB"
     (Mem.things
        (final (Mem.run (UpdateThing "t2" "AA:BB")
                  (final (Mem.run (CreateThing "t1" "AA:BB") fresh_world)))))
     = inl "t2" /\
   Mem.things
     (final (Mem.run (UpdateThing "t2" "AA:BB")
               (final (Mem.run (CreateThing "t1" "AA:BB") fresh_world)))) =
   Mem.things (final (Mem.run (UpdateThing "t2" "AA:BB") fresh_world))) /\
  (Mem.get "AA:BB"
     (Mem.channels
        (final (Mem.run (UpdateChannel "t2" "AA:BB")
                  (final (Mem.run (CreateChannel "t1" "AA:BB") fresh_world)))))
     = inl "t2" /\
   Mem.channels
     (final (Mem.run (UpdateChannel "t2" "AA:BB")
               (final (Mem.run (CreateChannel "t1" "AA:BB") fresh_world)))) =
   Mem.channels (final (Mem.run (UpdateChannel "t2" "AA:BB") fresh_world))).
Proof.
  apply (create_is_update fresh_world "AA:BB" "t1" "t2"); reflexivity.
Defined.

Lemma Publish_empty_data_witness :
  base64.DecodeString (Data (message "" None)) = ([], None) /\
  result (exec Mem.handle (Publish "ctx" "token" (message "" None)) scenario_world)
    <> Some ErrMalformedMessage /\
  exists r : option foreign_error,
    filter is_publish
      (trace (exec Mem.handle (Publish "ctx" "token" (message "" None))
                scenario_world)) =
    [Event (broker_Publish "ctx" "token"
              {| broker.Publisher := "t1";
                 broker.Protocol := "lora";
                 broker.ContentType := "application/json";
                 broker.Channel := "c1";
                 broker.Payload := [];
                 broker.Created :=
                   {| ptypes.Seconds := Unix noon;
                      ptypes.Nanos := Nanosecond noon |} |}) r].
Proof.
  apply (Publish_empty_data (env := sample_env) Mem.handle "ctx" "token" (message "" None)
           scenario_world scenario_world scenario_world scenario_world
           "t1" "c1" noon);
    try reflexivity.
  representable_now.
Defined.

(** ** More on forwarding: every path of [Publish] *)

Lemma payload_of_malformed {env : Env} (m : Message) :
  payload_of m = inr ErrMalformedMessage <->
  Object m = None /\ snd (base64.DecodeString (Data m)) <> None.
Proof.
  unfold payload_of. destruct (Object m) as [o|].
  - destruct (json_Marshal o); split; try discriminate; intros [H _]; discriminate.
  - destruct (base64.DecodeString (Data m)) as [payload [err|]]; cbn [snd]; split.
    + intros _. split; [reflexivity | discriminate].
    + reflexivity.
    + discriminate.
    + intros [_ H]. now contradiction H.
Qed.

Lemma payload_of_not_identity {env : Env} (m : Message) :
  payload_of m <> inr ErrMalformedIdentity /\
  payload_of m <> inr ErrNotFoundDev /\
  payload_of m <> inr ErrNotFoundApp.
Proof.
  unfold payload_of. destruct (Object m) as [o|].
  - destruct (json_Marshal o); repeat split; discriminate.
  - destruct (base64.DecodeString (Data m)) as [payload [err|]];
      repeat split; discriminate.
Qed.

Lemma TimestampProto_unrepresentable (t : Time) :
  ~ representable t -> exists err, ptypes.TimestampProto t = inr err.
Proof.
  intros Hno. unfold ptypes.TimestampProto, ptypes.validateTimestamp.
  cbn [ptypes.Seconds ptypes.Nanos].
  destruct (Z.ltb_spec (Unix t) ptypes.minValidSeconds); [eauto |].
  destruct (Z.leb_spec ptypes.maxValidSeconds (Unix t)); [eauto |].
  destruct (Z.ltb_spec (Nanosecond t) 0); [cbn; eauto |].
  destruct (Z.leb_spec 1000000000 (Nanosecond t)); [cbn; eauto |].
  exfalso. apply Hno. unfold representable. lia.
Qed.

Section AllPaths.

Context {env : Env} {W : Type}.
Variable handle : forall X, call X -> W -> X * W.
Variables (ctx : context_Context) (token : string).

Lemma Publish_paths (m : Message) (w : W) :
  Publish_path handle ctx token m w (exec handle (Publish ctx token m) w).
Proof.
  destruct (handle _ (Get thingsRM (DevEUI m)) w) as [[thing|e1] w1] eqn:Hthing.
  2:{ unfold Publish. rewrite (exec_Call handle _ _ _ _ _ Hthing).
      now apply path_no_thing. }
  destruct (handle _ (Get channelsRM (ApplicationID m)) w1)
    as [[channel|e2] w2] eqn:Hchannel.
  2:{ unfold Publish. rewrite (exec_Call handle _ _ _ _ _ Hthing). cbn beta iota.
      rewrite (exec_Call handle _ _ _ _ _ Hchannel).
      now apply path_no_channel with (w1 := w1). }
  destruct (payload_of m) as [payload|e3] eqn:Hpayload.
  2:{ rewrite (Publish_no_payload handle ctx token m w w1 w2 thing channel e3
                 Hthing Hchannel Hpayload).
      now apply path_no_payload with (w1 := w1). }
  destruct (handle _ time_Now w2) as [now w3] eqn:Hnow.
  destruct (ptypes.TimestampProto now) as [created|e4] eqn:Hstamp.
  2:{ unfold Publish. rewrite (exec_Call handle _ _ _ _ _ Hthing). cbn beta iota.
      rewrite (exec_Call handle _ _ _ _ _ Hchannel). cbn beta iota.
      rewrite Hpayload.
      rewrite (exec_Call handle _ _ _ _ _ Hnow). cbn beta iota.
      rewrite Hstamp.
      now apply path_no_timestamp with (payload := payload) (w1 := w1) (w2 := w2). }
  assert (Hrep : representable now).
  { destruct (Z.ltb_spec (Unix now) ptypes.minValidSeconds) as [H1|H1];
    destruct (Z.leb_spec ptypes.maxValidSeconds (Unix now)) as [H2|H2];
    destruct (Z.ltb_spec (Nanosecond now) 0) as [H3|H3];
    destruct (Z.leb_spec 1000000000 (Nanosecond now)) as [H4|H4];
    try (unfold representable; lia);
    exfalso; revert Hstamp;
    unfold ptypes.TimestampProto, ptypes.validateTimestamp;
    cbn [ptypes.Seconds ptypes.Nanos];
    repeat match goal with
           | |- context [Z.ltb ?a ?b] =>
               destruct (Z.ltb_spec a b); try lia
           | |- context [Z.leb ?a ?b] =>
               destruct (Z.leb_spec a b); try lia
           end; cbn; discriminate. }
  destruct (handle _ (broker_Publish ctx token
                        (envelope thing channel payload now)) w3)
    as [r w4] eqn:Hbus.
  rewrite (Publish_resolved handle ctx token m w w1 w2 w3 w4 thing channel
             payload now r Hthing Hchannel Hpayload Hnow Hrep Hbus).
  now apply path_published with (w1 := w1) (w2 := w2) (w3 := w3).
Qed.

End AllPaths.

Ltac by_paths handle ctx token m w :=
  generalize (Publish_paths handle ctx token m w);
  generalize (exec handle (Publish ctx token m) w);
  let o := fresh "o" in
  let Hpath := fresh "Hpath" in
  intros o Hpath; destruct Hpath.

Lemma filter_publish_cons {env : Env} (e : event) (l : list event) :
  filter is_publish (e :: l) =
  if is_publish e then e :: filter is_publish l else filter is_publish l.
Proof. destruct e as [X c x]; destruct c; reflexivity. Qed.

Lemma filter_publish_nil {env : Env} : filter is_publish ([] : list event) = [].
Proof. reflexivity. Qed.

Ltac only_publish :=
  cbn [result trace];
  rewrite ?filter_publish_cons, ?filter_publish_nil;
  cbn [is_publish].

Section Everywhere.

Context {env : Env} {W : Type}.
Variable handle : forall X, call X -> W -> X * W.
Variables (ctx : context_Context) (token : string).

(** X1: when the thing is found and the lookup of the application ID
    fails, [Publish] returns [ErrNotFoundApp] after these two lookups: the
    payload is not looked at, the clock is not read and the bus is handed
    nothing. *)
Theorem Publish_unmapped_application (m : Message) (w w1 w2 : W)
    (thing : string) (e : repo_error) :
  handle _ (Get thingsRM (DevEUI m)) w = (inl thing, w1) ->
  handle _ (Get channelsRM (ApplicationID m)) w1 = (inr e, w2) ->
  exec handle (Publish ctx token m) w =
  {| result := Some ErrNotFoundApp;
     final := w2;
     trace := [Event (Get thingsRM (DevEUI m)) (inl thing);
               Event (Get channelsRM (ApplicationID m)) (inr e)] |}.
Proof.
  intros Hthing Hchannel. unfold Publish.
  rewrite (exec_Call handle _ _ _ _ _ Hthing). cbn beta iota.
  rewrite (exec_Call handle _ _ _ _ _ Hchannel). reflexivity.
Qed.

(** X2: a message with an object that [json.Marshal] accepts, with both
    identities mapped: the bus is handed exactly one envelope, whose
    payload is the bytes [json.Marshal] returned, and [Publish] returns
    what the bus returned.  The clock reads a time a timestamp can hold. *)
Theorem Publish_forwards_object (m : Message) (w w1 w2 w3 : W)
    (thing channel : string) (o : value) (jo : list byte) (now : Time) :
  Object m = Some o ->
  json_Marshal o = inl jo ->
  handle _ (Get thingsRM (DevEUI m)) w = (inl thing, w1) ->
  handle _ (Get channelsRM (ApplicationID m)) w1 = (inl channel, w2) ->
  handle _ time_Now w2 = (now, w3) ->
  representable now ->
  exists r : option foreign_error,
    filter is_publish (trace (exec handle (Publish ctx token m) w)) =
    [Event (broker_Publish ctx token
              {| broker.Publisher := thing;
                 broker.Protocol := "lora";
                 broker.ContentType := "application/json";
                 broker.Channel := channel;
                 broker.Payload := jo;
                 broker.Created :=
                   {| ptypes.Seconds := Unix now;
                      ptypes.Nanos := Nanosecond now |} |}) r] /\
    result (exec handle (Publish ctx token m) w) = option_map Foreign r.
Proof.
  intros Hobject Hmarshal Hthing Hchannel Hnow Hrep.
  assert (Hpayload : payload_of m = inl jo).
  { rewrite (payload_of_object m o Hobject), Hmarshal. reflexivity. }
  destruct (handle _ (broker_Publish ctx token (envelope thing channel jo now)) w3)
    as [r w4] eqn:Hbus.
  exists r.
  rewrite (Publish_resolved handle ctx token m w w1 w2 w3 w4 thing channel jo now r
             Hthing Hchannel Hpayload Hnow Hrep Hbus).
  split; reflexivity.
Qed.

(** X3: when the clock reads a time a timestamp cannot hold, [Publish]
    returns the error of [ptypes.TimestampProto] after the two lookups and
    the reading of the clock, and the bus is handed nothing. *)
Theorem Publish_clock_out_of_range (m : Message) (w w1 w2 w3 : W)
    (thing channel : string) (payload : list byte) (now : Time) :
  handle _ (Get thingsRM (DevEUI m)) w = (inl thing, w1) ->
  handle _ (Get channelsRM (ApplicationID m)) w1 = (inl channel, w2) ->
  payload_of m = inl payload ->
  handle _ time_Now w2 = (now, w3) ->
  ~ representable now ->
  exists err : foreign_error,
    ptypes.TimestampProto now = inr err /\
    exec handle (Publish ctx token m) w =
    {| result := Some (Foreign err);
       final := w3;
       trace := [Event (Get thingsRM (DevEUI m)) (inl thing);
                 Event (Get channelsRM (ApplicationID m)) (inl channel);
                 Event time_Now now] |}.
Proof.
  intros Hthing Hchannel Hpayload Hnow Hno.
  destruct (TimestampProto_unrepresentable now Hno) as [err Hstamp].
  exists err. split; [exact Hstamp |].
  unfold Publish.
  rewrite (exec_Call handle _ _ _ _ _ Hthing). cbn beta iota.
  rewrite (exec_Call handle _ _ _ _ _ Hchannel). cbn beta iota.
  rewrite Hpayload.
  rewrite (exec_Call handle _ _ _ _ _ Hnow). cbn beta iota.
  rewrite Hstamp. reflexivity.
Qed.

(** X4: [Publish] makes its calls in one order: the lookup of the device
    EUI, the lookup of the application ID, the reading of the clock, the
    hand-over to the bus.  A run is a beginning of this sequence: it stops
    at the first lookup that fails, stops after a second lookup that
    succeeded only when the payload cannot be determined, and never reads
    the clock without going on to the bus or failing on the timestamp. *)
Theorem Publish_call_order (m : Message) (w : W) :
  let t := trace (exec handle (Publish ctx token m) w) in
  (exists e, t = [Event (Get thingsRM (DevEUI m)) (inr e)]) \/
  (exists thing e,
      t = [Event (Get thingsRM (DevEUI m)) (inl thing);
           Event (Get channelsRM (ApplicationID m)) (inr e)]) \/
  (exists thing channel err,
      payload_of m = inr err /\
      t = [Event (Get thingsRM (DevEUI m)) (inl thing);
           Event (Get channelsRM (ApplicationID m)) (inl channel)]) \/
  (exists thing channel now,
      ~ representable now /\
      t = [Event (Get thingsRM (DevEUI m)) (inl thing);
           Event (Get channelsRM (ApplicationID m)) (inl channel);
           Event time_Now now]) \/
  (exists thing channel now msg r,
      t = [Event (Get thingsRM (DevEUI m)) (inl thing);
           Event (Get channelsRM (ApplicationID m)) (inl channel);
           Event time_Now now;
           Event (broker_Publish ctx token msg) r]).
Proof.
  cbv zeta. by_paths handle ctx token m w; cbn [trace].
  - left. eauto.
  - right; left. eauto.
  - right; right; left. eauto.
  - right; right; right; left. exists thing, channel, now. split; [| reflexivity].
    intros Hrep. rewrite (TimestampProto_representable now Hrep) in *. discriminate.
  - right; right; right; right. eauto 6.
Qed.

(** X5: whatever [Publish] hands to the bus, it hands over at most once,
    with the context and the token of its caller, and in an envelope whose
    protocol is "lora", whose content type is "application/json", whose
    publisher and channel are the answers of the two lookups of this run and
    whose payload is the one determined from the message. *)
Theorem Publish_envelope_constants (m : Message) (w : W) :
  (length (filter is_publish (trace (exec handle (Publish ctx token m) w))) <= 1)%nat /\
  Forall
    (fun e =>
       exists (msg : broker.Message) (r : option foreign_error),
         e = Event (broker_Publish ctx token msg) r /\
         broker.Protocol msg = "lora" /\
         broker.ContentType msg = "application/json" /\
         In (Event (Get thingsRM (DevEUI m)) (inl (broker.Publisher msg)))
            (trace (exec handle (Publish ctx token m) w)) /\
         In (Event (Get channelsRM (ApplicationID m)) (inl (broker.Channel msg)))
            (trace (exec handle (Publish ctx token m) w)) /\
         payload_of m = inl (broker.Payload msg))
    (filter is_publish (trace (exec handle (Publish ctx token m) w))).
Proof.
  by_paths handle ctx token m w; only_publish; cbn [length In];
    (split; [lia |]); try (now constructor).
  constructor; [| constructor].
  exists (envelope thing channel payload now), r.
  cbn [envelope broker.Protocol broker.ContentType broker.Publisher
       broker.Channel broker.Payload In].
  repeat split; auto.
Qed.

(** X6: [Publish] returns nil exactly when the bus was handed an envelope
    and returned nil: a message is never dropped in silence. *)
Theorem Publish_nil_means_accepted (m : Message) (w : W) :
  result (exec handle (Publish ctx token m) w) = None <->
  exists msg : broker.Message,
    filter is_publish (trace (exec handle (Publish ctx token m) w)) =
    [Event (broker_Publish ctx token msg) None].
Proof.
  by_paths handle ctx token m w; only_publish;
    try (split; [discriminate | intros [msg Hmsg]; discriminate]).
  split.
  - destruct r; [discriminate |]. intros _. eauto.
  - intros [msg Hmsg]. destruct r; [| reflexivity].
    apply (f_equal (map accepted)) in Hmsg. discriminate.
Qed.

(** X7: once an envelope is handed to the bus, what [Publish] returns is
    the answer of the bus.  In every run either the bus is handed nothing
    and [Publish] returns an error, or the bus is handed one envelope and
    [Publish] returns its answer: the errors [Publish] makes itself and
    those of [json.Marshal] and [ptypes.TimestampProto] are all returned
    before anything is handed over. *)
Theorem Publish_returns_bus_answer (m : Message) (w : W) :
  (filter is_publish (trace (exec handle (Publish ctx token m) w)) = [] /\
   exists err : error, result (exec handle (Publish ctx token m) w) = Some err) \/
  (exists (msg : broker.Message) (r : option foreign_error),
      filter is_publish (trace (exec handle (Publish ctx token m) w)) =
        [Event (broker_Publish ctx token msg) r] /\
      result (exec handle (Publish ctx token m) w) = option_map Foreign r).
Proof.
  by_paths handle ctx token m w; only_publish; eauto.
Qed.

(** X8: which error says what, in a run that hands nothing to the bus (so
    that what [Publish] returns is not an answer of the bus; see X7).
    [Publish] then returns [ErrNotFoundDev] exactly when the lookup of the
    device EUI fails; [ErrNotFoundApp] exactly when that lookup succeeds
    and the lookup of the application ID fails; [ErrMalformedMessage]
    exactly when both succeed, the object is nil and the data is not valid
    base64; and never [ErrMalformedIdentity].  The errors of [json.Marshal]
    and [ptypes.TimestampProto] are errors of their libraries, not error
    variables of this package. *)
Theorem Publish_error_causes (m : Message) (w : W) :
  filter is_publish (trace (exec handle (Publish ctx token m) w)) = [] ->
  let dev := handle _ (Get thingsRM (DevEUI m)) w in
  let app := handle _ (Get channelsRM (ApplicationID m)) (snd dev) in
  let res := result (exec handle (Publish ctx token m) w) in
  (res = Some ErrNotFoundDev <-> exists e, fst dev = inr e) /\
  (res = Some ErrNotFoundApp <->
   exists thing e, fst dev = inl thing /\ fst app = inr e) /\
  (res = Some ErrMalformedMessage <->
   exists thing channel,
     fst dev = inl thing /\ fst app = inl channel /\
     Object m = None /\ snd (base64.DecodeString (Data m)) <> None) /\
  res <> Some ErrMalformedIdentity.
Proof.
  cbv zeta.
  destruct (payload_of_not_identity m) as [Hid [Hdev Happ]].
  pose proof (payload_of_malformed m) as Hmal.
  by_paths handle ctx token m w; only_publish; intros Hnone;
    try discriminate Hnone; clear Hnone;
    repeat match goal with
           | H : handle _ _ _ = _ |- _ => rewrite H; cbn [fst snd]
           end.
  - repeat split; try discriminate; eauto;
      try (intros [? [? [? _]]]; discriminate);
      try (intros [? [? [? [? _]]]]; discriminate).
  - repeat split; try discriminate; eauto;
      try (intros [? ?]; discriminate);
      try (intros [? [? [? [? _]]]]; discriminate).
  - repeat split.
    + intros [= ->]. now contradiction Hdev.
    + intros [? ?]; discriminate.
    + intros [= ->]. now contradiction Happ.
    + intros [? [? [_ ?]]]; discriminate.
    + intros [= ->]. apply Hmal in H1. destruct H1. eauto 6.
    + intros [? [? [_ [_ Hm]]]]. apply Hmal in Hm. congruence.
    + intros [= ->]. now contradiction Hid.
  - repeat split; try discriminate;
      try (intros [? ?]; discriminate);
      try (intros [? [? [_ ?]]]; discriminate).
    intros [? [? [_ [_ Hm]]]]. apply Hmal in Hm. congruence.
Qed.

End Everywhere.

(** ** More on identity management *)

(** A remove on a reachable route map makes the lookup of a key that was
    associated with the removed identifier fail with [NotFound]. *)
Lemma get_remove (id key : string) (rm : Mem.RouteMap) :
  Mem.reachable rm = true ->
  Mem.table rm !! key = Some id ->
  Mem.remove id rm =
    (None, {| Mem.table := filter (fun kv => kv.2 <> id) (Mem.table rm);
              Mem.reachable := true |}) /\
  Mem.get key (snd (Mem.remove id rm)) = inr NotFound.
Proof.
  intros Hup Hkey. unfold Mem.remove. rewrite Hup. split; [reflexivity |].
  unfold Mem.get. cbn.
  assert (Hnone : filter (fun kv : string * string => kv.2 <> id) (Mem.table rm)
                    !! key = None).
  { apply map_lookup_filter_None. right. intros x Hx Hne.
    rewrite Hkey in Hx. injection Hx as <-. now apply Hne. }
  rewrite Hnone. reflexivity.
Qed.

(** X10: removal stops forwarding.  On route maps that can be reached,
    after [RemoveThing(thingID)] a message whose device EUI was associated
    with [thingID] fails with [ErrNotFoundDev], and after
    [RemoveChannel(chanID)] a message whose application ID was associated
    with [chanID] fails with [ErrNotFoundApp]; [RemoveThing] leaves the
    channel map as it was and [RemoveChannel] the thing map. *)
Theorem Remove_then_Publish {env : Env} (ctx : context_Context) (token : string)
    (m : Message) (w : Mem.World) (thingID chanID : string) :
  Mem.reachable (Mem.things w) = true ->
  Mem.reachable (Mem.channels w) = true ->
  Mem.table (Mem.things w) !! DevEUI m = Some thingID ->
  Mem.table (Mem.channels w) !! ApplicationID m = Some chanID ->
  result (Mem.run (Publish ctx token m) (final (Mem.run (RemoveThing thingID) w)))
    = Some ErrNotFoundDev /\
  result (Mem.run (Publish ctx token m) (final (Mem.run (RemoveChannel chanID) w)))
    = Some ErrNotFoundApp /\
  Mem.channels (final (Mem.run (RemoveThing thingID) w)) = Mem.channels w /\
  Mem.things (final (Mem.run (RemoveChannel chanID) w)) = Mem.things w.
Proof.
  intros Hthings Hchannels Hdev Happ.
  destruct (get_remove thingID (DevEUI m) (Mem.things w) Hthings Hdev) as [Hr1 Hg1].
  destruct (get_remove chanID (ApplicationID m) (Mem.channels w) Hchannels Happ)
    as [Hr2 Hg2].
  unfold Mem.run, RemoveThing, RemoveChannel.
  cbn [exec Mem.handle Mem.repo_of].
  rewrite Hr1, Hr2 in *. cbn [final snd Mem.with_repo Mem.things Mem.channels] in *.
  repeat split.
  - unfold Publish. cbn [exec Mem.handle Mem.repo_of Mem.things].
    rewrite Hg1. reflexivity.
  - unfold Publish. cbn [exec Mem.handle Mem.repo_of Mem.things Mem.channels].
    unfold Mem.get at 1. rewrite Hthings, Hdev. cbn [exec Mem.handle Mem.repo_of Mem.channels].
    rewrite Hg2. reflexivity.
Qed.

(** ** The further properties at work *)

Lemma Publish_unmapped_application_witness :
  exec Mem.handle (Publish "ctx" "token" (message "!!!not-base64!!!" None))
    unrouted_world =
  {| result := Some ErrNotFoundApp;
     final := unrouted_world;
     trace := [Event (Get thingsRM "AA:BB") (inl "t1");
               Event (Get channelsRM "app1") (inr NotFound)] |}.
Proof.
  apply (Publish_unmapped_application (env := sample_env) Mem.handle "ctx" "token"
           (message "!!!not-base64!!!" None)
           unrouted_world unrouted_world unrouted_world "t1" NotFound);
    reflexivity.
Defined.

Lemma Publish_forwards_object_witness :
  exists r : option foreign_error,
    filter is_publish
      (trace (exec Mem.handle
                (Publish "ctx" "token"
                   (message "!!!not-base64!!!" (Some (Document "[21.5]"))))
                scenario_world)) =
    [Event (broker_Publish "ctx" "token"
              {| broker.Publisher := "t1";
                 broker.Protocol := "lora";
                 broker.ContentType := "application/json";
                 broker.Channel := "c1";
                 broker.Payload := bytes_of_string "[21.5]";
                 broker.Created :=
                   {| ptypes.Seconds := Unix noon;
                      ptypes.Nanos := Nanosecond noon |} |}) r] /\
    result (exec Mem.handle
              (Publish "ctx" "token"
                 (message "!!!not-base64!!!" (Some (Document "[21.5]"))))
              scenario_world) = option_map Foreign r.
Proof.
  apply (Publish_forwards_object (env := sample_env) Mem.handle "ctx" "token"
           (message "!!!not-base64!!!" (Some (Document "[21.5]")))
           scenario_world scenario_world scenario_world scenario_world
           "t1" "c1" (Document "[21.5]") (bytes_of_string "[21.5]") noon);
    try reflexivity.
  representable_now.
Defined.

Lemma Publish_clock_out_of_range_witness :
  exists err : foreign_error,
    ptypes.TimestampProto year_10000 = inr err /\
    exec Mem.handle (Publish "ctx" "token" (message "aGVsbG8=" None)) late_world =
    {| result := Some (Foreign err);
       final := late_world;
       trace := [Event (Get thingsRM "AA:BB") (inl "t1");
                 Event (Get channelsRM "app1") (inl "c1");
                 Event time_Now year_10000] |}.
Proof.
  apply (Publish_clock_out_of_range (env := sample_env) Mem.handle "ctx" "token"
           (message "aGVsbG8=" None) late_world late_world late_world late_world
           "t1" "c1" (bytes_of_string "hello") year_10000);
    try reflexivity.
  unfold representable, year_10000. cbn. lia.
Defined.

Lemma Remove_then_Publish_witness :
  result (Mem.run (Publish "ctx" "token" (message "aGVsbG8=" None))
            (final (Mem.run (RemoveThing "t1") scenario_world)))
    = Some ErrNotFoundDev /\
  result (Mem.run (Publish "ctx" "token" (message "aGVsbG8=" None))
            (final (Mem.run (RemoveChannel "c1") scenario_world)))
    = Some ErrNotFoundApp /\
  Mem.channels (final (Mem.run (RemoveThing "t1") scenario_world))
    = Mem.channels scenario_world /\
  Mem.things (final (Mem.run (RemoveChannel "c1") scenario_world))
    = Mem.things scenario_world.
Proof.
  apply (Remove_then_Publish (env := sample_env) "ctx" "token"
           (message "aGVsbG8=" None) scenario_world "t1" "c1");
    reflexivity.
Defined.

Lemma Publish_error_causes_witness :
  let m := message "!!!not-base64!!!" None in
  let dev := Mem.handle _ (Get thingsRM (DevEUI m)) scenario_world in
  let app := Mem.handle _ (Get channelsRM (ApplicationID m)) (snd dev) in
  let res := result (exec Mem.handle (Publish "ctx" "token" m) scenario_world) in
  (res = Some ErrNotFoundDev <-> exists e, fst dev = inr e) /\
  (res = Some ErrNotFoundApp <->
   exists thing e, fst dev = inl thing /\ fst app = inr e) /\
  (res = Some ErrMalformedMessage <->
   exists thing channel,
     fst dev = inl thing /\ fst app = inl channel /\
     Object m = None /\ snd (base64.DecodeString (Data m)) <> None) /\
  res <> Some ErrMalformedIdentity.
Proof.
  apply (Publish_error_causes (env := sample_env) Mem.handle "ctx" "token"
           (message "!!!not-base64!!!" None) scenario_world).
  reflexivity.
Defined.

(** ** Provisioning and forwarding together *)

(** X11: what is provisioned is forwarded.  On route maps that can be
    reached, after [CreateThing(thingID, devEUI)] and
    [CreateChannel(chanID, appID)] a message from that device EUI and
    application ID whose payload can be determined is handed to the bus in
    one envelope, published by [thingID] on [chanID], and [Publish] returns
    the answer of the bus.  The clock reads a time a timestamp can hold. *)
Theorem Provision_then_Publish {env : Env} (ctx : context_Context)
    (token : string) (m : Message) (w : Mem.World) (thingID chanID : string)
    (payload : list byte) :
  Mem.reachable (Mem.things w) = true ->
  Mem.reachable (Mem.channels w) = true ->
  payload_of m = inl payload ->
  representable (Mem.clock w) ->
  let provisioned :=
    final (Mem.run (CreateChannel chanID (ApplicationID m))
             (final (Mem.run (CreateThing thingID (DevEUI m)) w))) in
  Mem.handed (final (Mem.run (Publish ctx token m) provisioned)) =
    Mem.handed w ++ [(ctx, token, envelope thingID chanID payload (Mem.clock w))] /\
  result (Mem.run (Publish ctx token m) provisioned) =
    option_map Foreign (Mem.bus_reply w).
Proof.
  intros Hthings Hchannels Hpayload Hrep.
  destruct (get_save (DevEUI m) thingID (Mem.things w) Hthings) as [Hs1 Hg1].
  destruct (get_save (ApplicationID m) chanID (Mem.channels w) Hchannels)
    as [Hs2 Hg2].
  unfold Mem.run, CreateThing, CreateChannel.
  cbn [exec Mem.handle Mem.repo_of Mem.with_repo final Mem.things Mem.channels].
  rewrite Hs1 in *.
  cbn [exec Mem.handle Mem.repo_of Mem.with_repo final Mem.things Mem.channels snd].
  rewrite Hs2 in *.
  cbn [exec Mem.handle Mem.repo_of Mem.with_repo final Mem.things Mem.channels snd]
    in *.
  cbv zeta.
  match goal with
  | |- context [exec Mem.handle (Publish ctx token m) ?p] => set (w1 := p)
  end.
  rewrite (Publish_resolved Mem.handle ctx token m w1 w1 w1 w1
             (snd (Mem.handle _ (broker_Publish ctx token
                                   (envelope thingID chanID payload (Mem.clock w)))
                     w1))
             thingID chanID payload (Mem.clock w) (Mem.bus_reply w)).
  - split; reflexivity.
  - cbn [Mem.handle Mem.repo_of]. subst w1. cbn [Mem.things]. rewrite Hg1.
    reflexivity.
  - cbn [Mem.handle Mem.repo_of]. subst w1. cbn [Mem.channels]. rewrite Hg2.
    reflexivity.
  - exact Hpayload.
  - reflexivity.
  - exact Hrep.
  - reflexivity.
Qed.

Lemma Provision_then_Publish_witness :
  let provisioned :=
    final (Mem.run (CreateChannel "c1" "app1")
             (final (Mem.run (CreateThing "t1" "AA:BB") fresh_world))) in
  Mem.handed
    (final (Mem.run (Publish "ctx" "token" (message "aGVsbG8=" None)) provisioned)) =
    Mem.handed fresh_world ++
    [("ctx", "token", envelope "t1" "c1" (bytes_of_string "hello") noon)] /\
  result (Mem.run (Publish "ctx" "token" (message "aGVsbG8=" None)) provisioned) =
    option_map Foreign (Mem.bus_reply fresh_world).
Proof.
  apply (Provision_then_Publish (env := sample_env) "ctx" "token"
           (message "aGVsbG8=" None) fresh_world "t1" "c1"
           (bytes_of_string "hello"));
    try reflexivity.
  representable_now.
Defined.
